(** * zeroconf-example.py: registration and discovery of an mDNS service

    A shallow embedding of [src/zeroconf-example.py].  The script is glue
    over the operating system's socket interface and the [zeroconf]
    library, so the embedding has three layers:

    - the data the script handles (IPv4 addresses and their dotted-quad
      text, service records, the insertion-ordered dictionary of
      discovered services);
    - a state-and-exception monad over a [World] that holds the objects the
      script allocates (dictionaries, Zeroconf instances, browsers) and the
      trace of its external effects, with the answers of the operating
      system and of the library supplied by an [Env];
    - the script's own functions, written in that monad statement by
      statement. *)

From Stdlib.Strings Require Import Byte Ascii.
From Stdlib Require Import QArith.
From stdpp Require Import base option list gmap strings.

Local Open Scope Z_scope.

(** ** IPv4 addresses and dotted-quad text *)

Module IPv4.

(** A packed IPv4 address: the four octets of [struct in_addr], which
    Python shows as a [bytes] object of length four. *)
Record ipv4 : Type := Packed { o1 : byte; o2 : byte; o3 : byte; o4 : byte }.

#[global] Instance byte_eq_dec : EqDecision byte := Byte.byte_eq_dec.

#[global] Instance ipv4_eq_dec : EqDecision ipv4.
Proof. solve_decision. Defined.

Definition digit (n : N) : ascii := ascii_of_N (48 + n).

(** Decimal text of an octet, without leading zeros. *)
Definition decimal_octet (b : byte) : string :=
  let n := Byte.to_N b in
  if (n <? 10)%N then String (digit n) EmptyString
  else if (n <? 100)%N then
    String (digit (n / 10)) (String (digit (n mod 10)) EmptyString)
  else
    String (digit (n / 100))
      (String (digit ((n / 10) mod 10)) (String (digit (n mod 10)) EmptyString)).

(** [socket.inet_ntoa]: the text form of a packed address. *)
Definition inet_ntoa (a : ipv4) : string :=
  decimal_octet (o1 a) +:+ "." +:+ decimal_octet (o2 a) +:+ "." +:+
  decimal_octet (o3 a) +:+ "." +:+ decimal_octet (o4 a).

(** The strict reading of "dotted quad": four fields separated by dots,
    each field one to three decimal digits, no leading zero, value at most
    255. *)
Definition is_dot (c : ascii) : bool := bool_decide (c = "."%char).

Fixpoint split_dots (s : string) : list string :=
  match s with
  | EmptyString => [EmptyString]
  | String c s' =>
      if is_dot c then EmptyString :: split_dots s'
      else match split_dots s' with
           | f :: fs => String c f :: fs
           | [] => [String c EmptyString]
           end
  end.

Definition digit_value (c : ascii) : option N :=
  let n := N_of_ascii c in
  if ((48 <=? n) && (n <=? 57))%N then Some (n - 48)%N else None.

Fixpoint digits_value (acc : N) (s : string) : option N :=
  match s with
  | EmptyString => Some acc
  | String c s' =>
      match digit_value c with
      | Some d => digits_value (10 * acc + d)%N s'
      | None => None
      end
  end.

Definition parse_octet (s : string) : option byte :=
  match s with
  | EmptyString => None
  | String c s' =>
      if bool_decide (c = "0"%char) && negb (bool_decide (s' = EmptyString))
      then None
      else if (3 <? String.length s)%nat then None
      else match digits_value 0 s with
           | Some n => Byte.of_N n
           | None => None
           end
  end.

Definition parse_dotted_quad (s : string) : option ipv4 :=
  match split_dots s with
  | [f1; f2; f3; f4] =>
      match parse_octet f1, parse_octet f2, parse_octet f3, parse_octet f4 with
      | Some b1, Some b2, Some b3, Some b4 => Some (Packed b1 b2 b3 b4)
      | _, _, _, _ => None
      end
  | _ => None
  end.

Definition is_dotted_quad (s : string) : bool :=
  match parse_dotted_quad s with Some _ => true | None => false end.

Fixpoint no_dot (s : string) : bool :=
  match s with
  | EmptyString => true
  | String c s' => negb (is_dot c) && no_dot s'
  end.

Definition loopback : ipv4 := Packed x7f x00 x00 x01.

End IPv4.

Export IPv4.

(** ** Python values *)

(** An instance of Python's [Exception] class: what [except Exception]
    catches.  The asynchronous signals that derive from [BaseException]
    only (keyboard interrupt, interpreter exit) are not values of this
    type. *)
Inductive exn : Type := Exception (cls : string) (msg : string).

#[global] Instance exn_eq_dec : EqDecision exn.
Proof. solve_decision. Defined.

Inductive outcome (A : Type) : Type :=
| Ret (a : A)
| Raise (e : exn).
Arguments Ret {A} a.
Arguments Raise {A} e.

(** [zeroconf.ServiceInfo], with the fields the script sets or reads.
    [addresses] is the library's list of packed IPv4 addresses. *)
Record ServiceInfo : Type := mkServiceInfo {
  info_type : string;
  info_name : string;
  info_addresses : list ipv4;
  info_port : Z;
  info_properties : list (string * string);
  info_server : string
}.

#[global] Instance ServiceInfo_eq_dec : EqDecision ServiceInfo.
Proof. solve_decision. Defined.

(** The value stored per discovered service:
    [{"addresses": addresses, "port": info.port}]. *)
Record service_entry : Type := mkEntry {
  addresses : list string;
  port : Z
}.

#[global] Instance service_entry_eq_dec : EqDecision service_entry.
Proof. solve_decision. Defined.

(** Truth value of an object reference that is either [None] or an
    instance of a class without [__bool__] or [__len__]. *)
Definition truthy {A : Type} (o : option A) : bool :=
  match o with Some _ => true | None => false end.

(** ** Insertion-ordered dictionaries with string keys *)

Module PyDict.
Section dict.
Context {V : Type}.

Definition t : Type := list (string * V).

Definition empty : t := [].

Fixpoint get (k : string) (d : t) : option V :=
  match d with
  | [] => None
  | (k', v) :: d' => if decide (k = k') then Some v else get k d'
  end.

(** [d[k] = v]: an existing key keeps its position and takes the new
    value, a new key goes to the end. *)
Fixpoint set (k : string) (v : V) (d : t) : t :=
  match d with
  | [] => [(k, v)]
  | (k', v') :: d' =>
      if decide (k = k') then (k, v) :: d' else (k', v') :: set k v d'
  end.

Definition keys (d : t) : list string := map fst d.

Definition items (d : t) : list (string * V) := d.

(** [d.update(other)] *)
Definition update (d other : t) : t :=
  fold_left (fun acc kv => set (fst kv) (snd kv) acc) other d.

(** Number of entries stored under a key. *)
Definition count (k : string) (d : list (string * V)) : nat :=
  length (filter (fun kv => fst kv = k) d).

(** A dictionary object never holds a key twice. *)
Definition wf (d : t) : Prop := NoDup (keys d).
End dict.
Arguments t V : clear implicits.
End PyDict.

(** ** The world the script runs in *)

(** Objects have identities: a dictionary, a socket or a Zeroconf instance
    is named by the number it was allocated under, and two names of one
    object see the same contents. *)
Definition ref : Type := nat.

(** [MyListener]: [__init__] stores the dictionary it is given, not a
    copy. *)
Record MyListener : Type := mkListener { services : ref }.

(** What the script prints, by line. *)
Inductive message : Type :=
| MsgRegistered (service_name ip_address : string) (port : Z)
| MsgRegisterError (service_name : string) (e : exn)
| MsgDiscoveryStart (service_type : string) (duration : Q)
| MsgDiscoveryDone
| MsgRegistering (service_name : string)
| MsgRegistrationFailed
| MsgListHeader
| MsgListItem (name : string) (addresses : list string) (port : Z).

(** The externally visible effects, in the order they happen.  An event
    records a call that was made: [EvServiceInfo info] is the call of the
    library's [ServiceInfo] constructor with the fields of [info] as its
    arguments, [EvRegister z info] the call of [register_service],
    [EvClose z] the call of [close], whatever the call then does.  A
    socket, a Zeroconf instance and a browser are recorded when they have
    been created. *)
Inductive event : Type :=
| EvSocket (s : ref)
| EvConnect (s : ref) (host : string) (port : Z)
| EvSocketClose (s : ref)
| EvZeroconf (z : ref)
| EvServiceInfo (info : ServiceInfo)
| EvRegister (z : ref) (info : ServiceInfo)
| EvClose (z : ref)
| EvBrowser (z : ref) (service_type : string) (listener : MyListener)
| EvSleep (duration : Q)
| EvPrint (m : message)
| EvThreadStart
| EvThreadError (e : exn)
| EvThreadJoin.

Record World : Type := mkWorld {
  w_next : ref;
  w_dicts : gmap ref (PyDict.t service_entry);
  w_open : gset ref;
  w_browsers : list (ref * string * MyListener);
  w_lookups : nat;
  w_trace : list event
}.

(** What the library reports to a browser's listener. *)
Inductive browse_event : Type :=
| Added (name : string)
| Removed (name : string)
| Updated (name : string).

(** The answers of the operating system and of the zeroconf library.  The
    script decides nothing about them; every statement below holds for all
    of them unless it says otherwise.

    - [env_socket]: whether the UDP socket can be created.
    - [env_connect], [env_getsockname]: what [connect] and [getsockname]
      do on the socket.  The operating system reports the bound address
      as a [struct sockaddr_in]; Python hands the script its text.
    - [env_inet_aton]: [socket.inet_aton], which rejects some strings.
    - [env_zeroconf]: whether the Zeroconf instance that would get the
      given identity can be created.
    - [env_service_info]: whether the [ServiceInfo] constructor accepts
      the record made of its arguments; it checks the name against the
      type.
    - [env_register]: whether [Zeroconf.register_service] accepts a record.
    - [env_close]: what [close] does on an instance.
    - [env_browser]: whether [ServiceBrowser] accepts a service type.
    - [env_get_service_info]: the answer of the n-th [get_service_info]
      call, [None] when the service does not resolve in time.
    - [env_browse]: the notifications a browser of a service type sends
      while it runs. *)
Record Env : Type := mkEnv {
  env_hostname : string;
  env_socket : outcome unit;
  env_connect : outcome unit;
  env_getsockname : outcome (ipv4 * Z);
  env_inet_aton : string -> option ipv4;
  env_zeroconf : ref -> outcome unit;
  env_service_info : ServiceInfo -> outcome unit;
  env_register : ServiceInfo -> outcome unit;
  env_close : ref -> outcome unit;
  env_browser : string -> outcome unit;
  env_get_service_info : nat -> string -> string -> option ServiceInfo;
  env_browse : string -> list browse_event
}.

(** ** State and exceptions *)

Definition M (A : Type) : Type := World -> outcome A * World.

Definition ret {A : Type} (a : A) : M A := fun w => (Ret a, w).

Definition raise {A : Type} (e : exn) : M A := fun w => (Raise e, w).

Definition bind {A B : Type} (m : M A) (k : A -> M B) : M B :=
  fun w =>
    match m w with
    | (Ret a, w') => k a w'
    | (Raise e, w') => (Raise e, w')
    end.

(** [try: body except Exception as e: handler] *)
Definition try_except {A : Type} (body : M A) (handler : exn -> M A) : M A :=
  fun w =>
    match body w with
    | (Ret a, w') => (Ret a, w')
    | (Raise e, w') => handler e w'
    end.

Declare Scope py_scope.
Delimit Scope py_scope with py.
Notation "x <- c ;; k" := (bind c (fun x => k))
  (at level 100, c at next level, right associativity) : py_scope.
Notation "c ;; k" := (bind c (fun _ => k))
  (at level 100, right associativity) : py_scope.
Local Open Scope py_scope.

Definition lift {A : Type} (o : outcome A) : M A := fun w => (o, w).

Definition emit (ev : event) : M unit :=
  fun w =>
    (Ret tt,
     mkWorld (w_next w) (w_dicts w) (w_open w) (w_browsers w) (w_lookups w)
       (w_trace w ++ [ev])).

Definition fresh : M ref :=
  fun w =>
    (Ret (w_next w),
     mkWorld (S (w_next w)) (w_dicts w) (w_open w) (w_browsers w)
       (w_lookups w) (w_trace w)).

Definition print (m : message) : M unit := emit (EvPrint m).

(** [for x in xs: body x] *)
Fixpoint for_each {A : Type} (xs : list A) (body : A -> M unit) : M unit :=
  match xs with
  | [] => ret tt
  | x :: xs' => body x ;; for_each xs' body
  end.

(** *** Dictionary objects *)

Definition dict_at (w : World) (d : ref) : PyDict.t service_entry :=
  default PyDict.empty (w_dicts w !! d).

Definition put_dict (d : ref) (v : PyDict.t service_entry) : M unit :=
  fun w =>
    (Ret tt,
     mkWorld (w_next w) (<[d := v]> (w_dicts w)) (w_open w) (w_browsers w)
       (w_lookups w) (w_trace w)).

(** [{}] *)
Definition dict_new : M ref :=
  d <- fresh ;; put_dict d PyDict.empty ;; ret d.

(** [d[k] = v] *)
Definition dict_setitem (d : ref) (k : string) (v : service_entry) : M unit :=
  fun w => put_dict d (PyDict.set k v (dict_at w d)) w.

(** [d.update(other)] *)
Definition dict_update (d other : ref) : M unit :=
  fun w => put_dict d (PyDict.update (dict_at w d) (dict_at w other)) w.

(** [d.items()] *)
Definition dict_items (d : ref) : M (list (string * service_entry)) :=
  fun w => (Ret (PyDict.items (dict_at w d)), w).

(** ** The library calls the script makes

    Every call that the operating system or the library can refuse has
    both of its outcomes here, taken from the environment, whether the
    script guards it with [try] or not: creating the socket, [connect],
    [getsockname], [inet_aton], creating a Zeroconf instance, the
    [ServiceInfo] constructor, [register_service], [close], creating a
    browser, and [time.sleep], which refuses a negative duration. *)

Section Script.
Variable env : Env.

(** [socket.socket(socket.AF_INET, socket.SOCK_DGRAM)] *)
Definition socket_socket : M ref :=
  lift (env_socket env) ;; s <- fresh ;; emit (EvSocket s) ;; ret s.

(** [s.connect((host, port))] *)
Definition socket_connect (s : ref) (host : string) (port : Z) : M unit :=
  emit (EvConnect s host port) ;; lift (env_connect env).

(** [s.getsockname()]: the pair of the bound address, as text, and the
    bound port. *)
Definition socket_getsockname (s : ref) : M (string * Z) :=
  match env_getsockname env with
  | Ret (a, p) => ret (inet_ntoa a, p)
  | Raise e => raise e
  end.

(** Leaving the [with] block closes the socket. *)
Definition socket_close (s : ref) : M unit := emit (EvSocketClose s).

(** [socket.gethostname()] *)
Definition socket_gethostname : M string := ret (env_hostname env).

(** [socket.inet_aton(ip)]: [OSError] on a string it does not accept. *)
Definition socket_inet_aton (ip : string) : M ipv4 :=
  match env_inet_aton env ip with
  | Some a => ret a
  | None =>
      raise (Exception "OSError" "illegal IP address string passed to inet_aton")
  end.

Definition set_open (f : gset ref -> gset ref) : M unit :=
  fun w =>
    (Ret tt,
     mkWorld (w_next w) (w_dicts w) (f (w_open w)) (w_browsers w)
       (w_lookups w) (w_trace w)).

Definition set_browsers
  (f : list (ref * string * MyListener) -> list (ref * string * MyListener))
  : M unit :=
  fun w =>
    (Ret tt,
     mkWorld (w_next w) (w_dicts w) (w_open w) (f (w_browsers w))
       (w_lookups w) (w_trace w)).

(** [zeroconf.Zeroconf()] *)
Definition Zeroconf_new : M ref :=
  (fun w => lift (env_zeroconf env (w_next w)) w) ;;
  z <- fresh ;; set_open (union {[z]}) ;; emit (EvZeroconf z) ;; ret z.

(** [zeroconf.ServiceInfo(type_, name, addresses=..., port=...,
    properties=..., server=...)] *)
Definition ServiceInfo_new (type_ name : string) (addresses : list ipv4)
  (port : Z) (properties : list (string * string)) (server : string)
  : M ServiceInfo :=
  let info := mkServiceInfo type_ name addresses port properties server in
  emit (EvServiceInfo info) ;; lift (env_service_info env info) ;; ret info.

(** [zeroconf_instance.register_service(info)] *)
Definition Zeroconf_register_service (z : ref) (info : ServiceInfo) : M unit :=
  emit (EvRegister z info) ;; lift (env_register env info).

(** [zeroconf_instance.close()]: when it returns, the instance and its
    browsers have stopped; when it raises, the instance is still open. *)
Definition Zeroconf_close (z : ref) : M unit :=
  emit (EvClose z) ;;
  lift (env_close env z) ;;
  set_open (fun o => o ∖ {[z]}) ;;
  set_browsers (filter (fun b => fst (fst b) <> z)).

(** [zeroconf_instance.get_service_info(service_type, name)] *)
Definition Zeroconf_get_service_info (z : ref) (service_type name : string)
  : M (option ServiceInfo) :=
  fun w =>
    (Ret (env_get_service_info env (w_lookups w) service_type name),
     mkWorld (w_next w) (w_dicts w) (w_open w) (w_browsers w)
       (S (w_lookups w)) (w_trace w)).

(** [zeroconf.ServiceBrowser(zeroconf_instance, service_type, listener)] *)
Definition ServiceBrowser (z : ref) (service_type : string)
  (listener : MyListener) : M unit :=
  lift (env_browser env service_type) ;;
  set_browsers (fun bs => bs ++ [(z, service_type, listener)]) ;;
  emit (EvBrowser z service_type listener).

(** ** The script *)

(** [get_local_ip()] *)
Definition get_local_ip : M string :=
  s <- socket_socket ;;
  ip <- try_except
          (socket_connect s "8.8.8.8" 80 ;;
           sockname <- socket_getsockname s ;;
           ret (fst sockname))
          (fun _ => ret "127.0.0.1") ;;
  socket_close s ;;
  ret ip.

(** [register_service(service_name, service_type, port, ip_address=None)] *)
Definition register_service (service_name service_type : string) (port : Z)
  (ip_address : option string) : M (option ref * option ServiceInfo) :=
  ip_address <- match ip_address with
                | None => get_local_ip
                | Some ip => ret ip
                end ;;
  hostname <- socket_gethostname ;;
  let server := hostname +:+ ".local." in
  zeroconf_instance <- Zeroconf_new ;;
  packed <- socket_inet_aton ip_address ;;
  info <- ServiceInfo_new service_type
            (service_name +:+ "." +:+ service_type) [packed] port [] server ;;
  try_except
    (Zeroconf_register_service zeroconf_instance info ;;
     print (MsgRegistered service_name ip_address port) ;;
     ret (Some zeroconf_instance, Some info))
    (fun e =>
       print (MsgRegisterError service_name e) ;;
       Zeroconf_close zeroconf_instance ;;
       ret (None, None)).

(** [MyListener.add_service(self, zeroconf_instance, service_type, name)] *)
Definition add_service (self : MyListener) (zeroconf_instance : ref)
  (service_type name : string) : M unit :=
  info <- Zeroconf_get_service_info zeroconf_instance service_type name ;;
  match info with
  | Some info =>
      let addresses := map inet_ntoa (info_addresses info) in
      dict_setitem (services self) name (mkEntry addresses (info_port info))
  | None => ret tt
  end.

(** [MyListener.remove_service]: [pass] *)
Definition remove_service (self : MyListener) (zeroconf_instance : ref)
  (service_type name : string) : M unit :=
  ret tt.

(** [MyListener.update_service]: [pass] *)
Definition update_service (self : MyListener) (zeroconf_instance : ref)
  (service_type name : string) : M unit :=
  ret tt.

(** The library calls the listener's method for each notification. *)
Definition notify (listener : MyListener) (z : ref) (service_type : string)
  (ev : browse_event) : M unit :=
  match ev with
  | Added name => add_service listener z service_type name
  | Removed name => remove_service listener z service_type name
  | Updated name => update_service listener z service_type name
  end.

Definition run_browser (b : ref * string * MyListener) : M unit :=
  for_each (env_browse env (snd (fst b))) (notify (snd b) (fst (fst b)) (snd (fst b))).

(** [time.sleep(duration)]: [ValueError] on a negative duration.  The
    script's thread does nothing else between creating a browser and
    closing its instance, so the notifications the browser delivers in
    that window are run here. *)
Definition time_sleep (duration : Q) : M unit :=
  if Qle_bool 0 duration then
    emit (EvSleep duration) ;;
    fun w => for_each (w_browsers w) run_browser w
  else raise (Exception "ValueError" "sleep length must be non-negative").

(** [discover_services(service_type, duration=5)]: the result is the
    dictionary object the listener was given. *)
Definition discover_services (service_type : string) (duration : Q) : M ref :=
  zeroconf_instance <- Zeroconf_new ;;
  services <- dict_new ;;
  let listener := mkListener services in
  ServiceBrowser zeroconf_instance service_type listener ;;
  print (MsgDiscoveryStart service_type duration) ;;
  time_sleep duration ;;
  Zeroconf_close zeroconf_instance ;;
  print MsgDiscoveryDone ;;
  ret services.

(** [threading.Thread(target=f).start()] followed, with nothing between,
    by [join()]: the target runs to its end, and an exception in it ends
    the thread, not the caller. *)
Definition Thread_start (target : M unit) : M unit :=
  emit EvThreadStart ;;
  try_except target (fun e => emit (EvThreadError e)).

Definition Thread_join : M unit := emit EvThreadJoin.

(** [test_mdns()] *)
Definition test_mdns : M unit :=
  let service_name := "test-service" in
  let service_type := "_http._tcp.local." in
  let service_port := 8080 in
  service_ip <- get_local_ip ;;
  print (MsgRegistering service_name) ;;
  registered <- register_service service_name service_type service_port
                  (Some service_ip) ;;
  let zeroconf_instance := fst registered in
  let info := snd registered in
  if negb (truthy zeroconf_instance) || negb (truthy info) then
    print MsgRegistrationFailed ;;
    ret tt
  else
    discovery_results <- dict_new ;;
    let discovery_duration := 2%Q in
    let discovery_thread_func :=
      (discovered <- discover_services service_type discovery_duration ;;
       dict_update discovery_results discovered) in
    Thread_start discovery_thread_func ;;
    Thread_join ;;
    print MsgListHeader ;;
    items <- dict_items discovery_results ;;
    for_each items
      (fun item =>
         print (MsgListItem (fst item) (addresses (snd item)) (port (snd item)))).

End Script.

(** ** Vocabulary of the statements *)

(** The events a run added to the trace. *)
Definition events_since (w w' : World) : list event :=
  drop (length (w_trace w)) (w_trace w').


Definition is_added (ev : browse_event) : bool :=
  match ev with
  | Added _ => true
  | _ => false
  end.


(** The records handed to the library's [register_service], in order. *)
Definition registrations (t : list event) : list (ref * ServiceInfo) :=
  omap (fun ev => match ev with
                  | EvRegister z info => Some (z, info)
                  | _ => None
                  end) t.

(** The address text [register_service] works with: the one supplied, or
    else what [get_local_ip] returns in the world of the call. *)
Definition address_used (env : Env) (ip_address : option string) (w : World)
  (ip : string) : Prop :=
  match ip_address with
  | Some supplied => ip = supplied
  | None => fst (get_local_ip env w) = Ret ip
  end.

(** The events of [register_service] before it creates its Zeroconf
    instance, and the identity of that instance: with no address supplied,
    [get_local_ip] opens a socket first. *)
Definition resolution_events (ip_address : option string) (w : World)
  : list event :=
  match ip_address with
  | Some _ => []
  | None =>
      [EvSocket (w_next w); EvConnect (w_next w) "8.8.8.8" 80;
       EvSocketClose (w_next w)]
  end.

Definition registration_instance (ip_address : option string) (w : World)
  : ref :=
  match ip_address with
  | Some _ => w_next w
  | None => S (w_next w)
  end.

(** The number of [get_service_info] calls a run of notifications makes. *)
Fixpoint lookups_of (evs : list browse_event) : nat :=
  match evs with
  | [] => 0%nat
  | Added _ :: evs' => S (lookups_of evs')
  | _ :: evs' => lookups_of evs'
  end.

(** What a listener's dictionary [d] holds after a run of notifications
    whose first lookup is the [n]-th. *)
Fixpoint accumulate (env : Env) (service_type : string) (n : nat)
  (evs : list browse_event) (d : PyDict.t service_entry)
  : PyDict.t service_entry :=
  match evs with
  | [] => d
  | Added name :: evs' =>
      accumulate env service_type (S n) evs'
        (match env_get_service_info env n service_type name with
         | Some info =>
             PyDict.set name
               (mkEntry (map inet_ntoa (info_addresses info)) (info_port info)) d
         | None => d
         end)
  | _ :: evs' => accumulate env service_type n evs' d
  end.

(** Two worlds that differ at most in the dictionaries' contents and in
    the number of lookups made. *)
Definition same_but_store (w w' : World) : Prop :=
  w_next w' = w_next w /\ w_open w' = w_open w /\
  w_browsers w' = w_browsers w /\ w_trace w' = w_trace w.


(** The lines [test_mdns] prints for the entries of a dictionary. *)
Definition listing_events (items : list (string * service_entry)) : list event :=
  map (fun item : string * service_entry =>
         EvPrint (MsgListItem (fst item) (addresses (snd item)) (port (snd item))))
    items.

(** The world before the script starts. *)
Definition initial_world : World := mkWorld 0%nat ∅ ∅ [] 0%nat [].

(** ** Sample environments *)

Definition lan_address : ipv4 := Packed xc0 xa8 x01 x0a.

Definition printer : ServiceInfo :=
  mkServiceInfo "_http._tcp.local." "printer._http._tcp.local."
    [Packed xc0 xa8 x01 x14] 631 [] "printer.local.".

(** An operating system and a library that refuse nothing, with a route
    to the outside, given what lookups answer and what browsers report. *)
Definition willing
  (lookup : nat -> string -> string -> option ServiceInfo)
  (browse : string -> list browse_event) : Env :=
  mkEnv "host" (Ret tt) (Ret tt) (Ret (lan_address, 54321)) parse_dotted_quad
    (fun _ => Ret tt) (fun _ => Ret tt) (fun _ => Ret tt) (fun _ => Ret tt)
    (fun _ => Ret tt) lookup browse.

(** A network with a route and one resolvable service. *)
Definition home_network : Env :=
  willing
    (fun _ _ name =>
       if decide (name = "printer._http._tcp.local.") then Some printer else None)
    (fun _ =>
       [Added "printer._http._tcp.local."; Added "ghost._http._tcp.local.";
        Removed "printer._http._tcp.local."]).



(** No socket can be created: the process is out of file descriptors. *)
Definition no_sockets : Env :=
  mkEnv "host" (Raise (Exception "OSError" "Too many open files")) (Ret tt)
    (Ret (lan_address, 54321)) parse_dotted_quad
    (fun _ => Ret tt) (fun _ => Ret tt) (fun _ => Ret tt) (fun _ => Ret tt)
    (fun _ => Ret tt) (fun _ _ _ => None) (fun _ => []).


(** A library that checks the service type, in the constructor of a
    record and in the browser. *)
Definition checks_types : Env :=
  mkEnv "host" (Ret tt) (Ret tt) (Ret (lan_address, 54321)) parse_dotted_quad
    (fun _ => Ret tt)
    (fun info =>
       if decide (info_type info = "_http._tcp.local.") then Ret tt
       else Raise (Exception "BadTypeInNameException" (info_type info)))
    (fun _ => Ret tt) (fun _ => Ret tt)
    (fun ty =>
       if decide (ty = "_http._tcp.local.") then Ret tt
       else Raise (Exception "BadTypeInNameException" ty))
    (fun _ _ _ => None) (fun _ => []).

(** A service that resolves with IPv6 addresses only: the library's
    record of it lists no IPv4 address. *)
Definition ipv6_only : ServiceInfo :=
  mkServiceInfo "_http._tcp.local." "nas._http._tcp.local." [] 8080 []
    "nas.local.".

Definition ipv6_network : Env :=
  willing (fun _ _ _ => Some ipv6_only)
    (fun _ => [Added "nas._http._tcp.local."]).

(** The printer announced twice, once on each of two addresses. *)
Definition printer_moved : Env :=
  willing
    (fun n _ _ =>
       Some (mkServiceInfo "_http._tcp.local." "printer._http._tcp.local."
               [Packed xc0 xa8 x01 (if decide (n = 0%nat) then x14 else x15)]
               631 [] "printer.local."))
    (fun _ => []).

(** ** Proof steps *)

(** Runs the library calls and the monad's operations of the goal on a
    world given by its fields; the script's own functions stay folded. *)
Ltac run_script :=
  lazy beta iota zeta delta
    [socket_socket socket_connect socket_getsockname socket_close
     socket_gethostname socket_inet_aton Zeroconf_new ServiceInfo_new
     Zeroconf_register_service Zeroconf_close ServiceBrowser dict_new
     dict_update dict_items Thread_start Thread_join print try_except bind
     ret raise lift emit fresh set_open set_browsers put_dict truthy negb orb
     fst snd w_next w_dicts w_open w_browsers w_lookups w_trace];
  rewrite <- ?app_assoc; cbn [app].

(** Decides a membership hypothesis over an explicit list of events. *)
Ltac elem_cases H :=
  repeat first
    [ apply elem_of_nil in H; contradiction
    | apply elem_of_cons in H as [H|H]; [try discriminate|] ].

(** Uses the equation of a run to read a branch of
    [register_service_outcome]. *)
Ltac read_outcome H Hrun Hev :=
  let w0 := fresh "w0" in
  let Hrun0 := fresh "Hrun0" in
  destruct H as (w0 & Hrun0 & Hev & ?);
  rewrite Hrun in Hrun0; injection Hrun0 as; subst.

(** Splits a membership in the events of a run of [register_service]. *)
Ltac in_events Hin ip_address :=
  apply elem_of_app in Hin as [Hin|Hin];
  [destruct ip_address; cbn [resolution_events] in Hin; elem_cases Hin
  |elem_cases Hin].

(** * Facts *)

(** ** Dotted-quad text *)

Lemma split_dots_not_nil (s : string) : split_dots s <> [].
Proof.
  induction s as [|c s IH]; cbn; [easy|].
  destruct (is_dot c); [easy|]. destruct (split_dots s); easy.
Qed.

Lemma split_dots_field (f r : string) :
  no_dot f = true ->
  split_dots (f +:+ "." +:+ r) = f :: split_dots r.
Proof.
  induction f as [|c f IH]; intros H; [reflexivity|].
  cbn [no_dot] in H. apply andb_prop in H as [Hc Hf].
  change (String c f +:+ "." +:+ r) with (String c (f +:+ "." +:+ r)).
  cbn [split_dots]. destruct (is_dot c); [discriminate|].
  rewrite IH by assumption. reflexivity.
Qed.

Lemma split_dots_last (f : string) :
  no_dot f = true -> split_dots f = [f].
Proof.
  induction f as [|c f IH]; cbn; intros H; [reflexivity|].
  apply andb_prop in H as [Hc Hf].
  destruct (is_dot c); [discriminate|].
  rewrite IH by assumption. reflexivity.
Qed.

Lemma decimal_octet_no_dot (b : byte) : no_dot (decimal_octet b) = true.
Proof. destruct b; reflexivity. Qed.

Lemma parse_decimal_octet (b : byte) : parse_octet (decimal_octet b) = Some b.
Proof. destruct b; reflexivity. Qed.

(** Reading back the text of a packed address gives the address. *)
Lemma parse_inet_ntoa (a : ipv4) : parse_dotted_quad (inet_ntoa a) = Some a.
Proof.
  destruct a as [b1 b2 b3 b4].
  unfold parse_dotted_quad, inet_ntoa; cbn [o1 o2 o3 o4].
  rewrite !split_dots_field by apply decimal_octet_no_dot.
  rewrite split_dots_last by apply decimal_octet_no_dot.
  rewrite !parse_decimal_octet. reflexivity.
Qed.

Lemma inet_ntoa_dotted_quad (a : ipv4) : is_dotted_quad (inet_ntoa a) = true.
Proof. unfold is_dotted_quad. rewrite parse_inet_ntoa. reflexivity. Qed.

Lemma inet_ntoa_inj (a b : ipv4) : inet_ntoa a = inet_ntoa b -> a = b.
Proof.
  intros H. apply (f_equal parse_dotted_quad) in H.
  rewrite !parse_inet_ntoa in H. congruence.
Qed.

Lemma loopback_text : inet_ntoa loopback = "127.0.0.1".
Proof. reflexivity. Qed.


(** ** Dictionaries *)

Section dict_facts.
Context {V : Type}.
Implicit Types (d : PyDict.t V) (k : string) (v : V).

Lemma get_set_eq d k v : PyDict.get k (PyDict.set k v d) = Some v.
Proof.
  induction d as [|[k' v'] d IH]; cbn.
  - rewrite decide_True; done.
  - destruct (decide (k = k')) as [->|Hne]; cbn.
    + rewrite decide_True; done.
    + rewrite decide_False; done.
Qed.

Lemma get_set_ne d k k' v :
  k' <> k -> PyDict.get k' (PyDict.set k v d) = PyDict.get k' d.
Proof.
  intros Hne. induction d as [|[k0 v0] d IH]; cbn.
  - rewrite decide_False; done.
  - destruct (decide (k = k0)) as [->|Hk]; cbn.
    + rewrite !decide_False; done.
    + rewrite IH. done.
Qed.

Lemma count_absent d k : k ∉ PyDict.keys d -> PyDict.count k d = 0%nat.
Proof.
  unfold PyDict.count, PyDict.keys.
  induction d as [|[k' v'] d IH]; intros Hk; [done|].
  change (map fst ((k', v') :: d)) with (k' :: map fst d) in Hk.
  apply not_elem_of_cons in Hk as [Hne Hk].
  rewrite filter_cons_False by (cbn; congruence). auto.
Qed.

Lemma keys_set d k v :
  PyDict.keys (PyDict.set k v d) =
  if decide (k ∈ PyDict.keys d) then PyDict.keys d else PyDict.keys d ++ [k].
Proof.
  unfold PyDict.keys.
  induction d as [|[k' v'] d IH]; cbn.
  - rewrite decide_False; [done|]. apply not_elem_of_nil.
  - destruct (decide (k = k')) as [->|Hne]; cbn.
    + rewrite decide_True; [done|]. apply elem_of_cons; auto.
    + rewrite IH. destruct (decide (k ∈ map fst d)) as [Hin|Hnin].
      * rewrite decide_True; [done|]. apply elem_of_cons; auto.
      * rewrite decide_False; [done|].
        intros [?|?]%elem_of_cons; done.
Qed.

(** Assignment keeps the keys distinct. *)
Lemma wf_set d k v : PyDict.wf d -> PyDict.wf (PyDict.set k v d).
Proof.
  unfold PyDict.wf. intros Hd. rewrite keys_set.
  destruct (decide (k ∈ PyDict.keys d)) as [Hin|Hnin]; [done|].
  apply NoDup_app. split_and!; [done| |apply NoDup_singleton].
  intros x Hx ->%list_elem_of_singleton. done.
Qed.

Lemma wf_update d other : PyDict.wf d -> PyDict.wf (PyDict.update d other).
Proof.
  unfold PyDict.update. revert d.
  induction other as [|[k v] other IH]; cbn; intros d Hd; [done|].
  apply IH, wf_set, Hd.
Qed.

(** After [d[k] = v] exactly one entry is stored under [k]. *)
Lemma count_set d k v :
  PyDict.wf d -> PyDict.count k (PyDict.set k v d) = 1%nat.
Proof.
  unfold PyDict.wf, PyDict.keys.
  induction d as [|[k' v'] d IH]; cbn [PyDict.set map fst]; intros Hd.
  - unfold PyDict.count. rewrite filter_cons_True by done. done.
  - apply NoDup_cons in Hd as [Hk' Hd].
    destruct (decide (k = k')) as [->|Hne].
    + unfold PyDict.count. rewrite filter_cons_True by done. cbn.
      f_equal. apply count_absent. done.
    + unfold PyDict.count. rewrite filter_cons_False by (cbn; congruence).
      apply IH, Hd.
Qed.

(** Entries under other keys are left alone. *)
Lemma count_set_ne d k k' v :
  k' <> k -> PyDict.count k' (PyDict.set k v d) = PyDict.count k' d.
Proof.
  intros Hne. unfold PyDict.count.
  induction d as [|[k0 v0] d IH]; cbn [PyDict.set].
  - rewrite filter_cons_False by (cbn; congruence). done.
  - destruct (decide (k = k0)) as [->|Hk].
    + rewrite !filter_cons_False by (cbn; congruence). done.
    + destruct (decide (k0 = k')) as [->|Hk0].
      * rewrite !filter_cons_True by done. cbn. by rewrite IH.
      * rewrite !filter_cons_False by (cbn; congruence). done.
Qed.

End dict_facts.

(** ** Runs of the script's functions *)

Lemma events_since_app (w w' : World) (t : list event) :
  w_trace w' = w_trace w ++ t -> events_since w w' = t.
Proof. intros H. unfold events_since. rewrite H. apply drop_app_length. Qed.

Lemma events_since_refl (w : World) : events_since w w = [].
Proof. apply events_since_app. by rewrite app_nil_r. Qed.

(** When the socket cannot be created the exception leaves
    [get_local_ip]: the [with] statement is outside the [try]. *)
Lemma get_local_ip_no_socket (env : Env) (w : World) (e : exn) :
  env_socket env = Raise e -> get_local_ip env w = (Raise e, w).
Proof.
  intros Hs. destruct w as [n ds o bs l t]. unfold get_local_ip. run_script.
  rewrite Hs. reflexivity.
Qed.

Lemma get_local_ip_run (env : Env) (w : World) :
  env_socket env = Ret tt ->
  exists ip : string,
    get_local_ip env w =
      (Ret ip,
       mkWorld (S (w_next w)) (w_dicts w) (w_open w) (w_browsers w)
         (w_lookups w)
         (w_trace w ++
          [EvSocket (w_next w); EvConnect (w_next w) "8.8.8.8" 80;
           EvSocketClose (w_next w)])) /\
    is_dotted_quad ip = true /\
    (forall e, env_connect env = Raise e -> ip = "127.0.0.1") /\
    (forall e, env_getsockname env = Raise e -> ip = "127.0.0.1") /\
    (forall a p,
       env_connect env = Ret tt -> env_getsockname env = Ret (a, p) ->
       ip = inet_ntoa a).
Proof.
  intros Hs. destruct w as [n ds o bs l t]. unfold get_local_ip. run_script.
  rewrite Hs. run_script.
  destruct (env_connect env) as [[]|e] eqn:Hc.
  - destruct (env_getsockname env) as [[a p]|e'] eqn:Hg; run_script.
    + exists (inet_ntoa a). split; [reflexivity|].
      split; [apply inet_ntoa_dotted_quad|].
      split_and!; intros; congruence.
    + exists "127.0.0.1". split; [reflexivity|].
      split; [reflexivity|]. split_and!; intros; congruence.
  - run_script. exists "127.0.0.1". split; [reflexivity|].
    split; [reflexivity|]. split_and!; intros; congruence.
Qed.

Lemma bind_Ret {A B : Type} (m : M A) (k : A -> M B) (w w' : World) (a : A) :
  m w = (Ret a, w') -> bind m k w = k a w'.
Proof. unfold bind. intros ->. reflexivity. Qed.

Lemma bind_Raise {A B : Type} (m : M A) (k : A -> M B) (w w' : World) (e : exn) :
  m w = (Raise e, w') -> bind m k w = (Raise e, w').
Proof. unfold bind. intros ->. reflexivity. Qed.

(** The run of [register_service] on a supplied address, by the answers
    of the library. *)
Lemma register_service_run (env : Env) (name ty : string) (port : Z)
  (ip : string) (w : World) :
  let z := w_next w in
  let after (o : gset ref) (t : list event) :=
    mkWorld (S z) (w_dicts w) o (w_browsers w) (w_lookups w) (w_trace w ++ t) in
  register_service env name ty port (Some ip) w =
    match env_zeroconf env z with
    | Raise e => (Raise e, w)
    | Ret _ =>
        match env_inet_aton env ip with
        | None =>
            (Raise (Exception "OSError"
                      "illegal IP address string passed to inet_aton"),
             after ({[z]} ∪ w_open w) [EvZeroconf z])
        | Some a =>
            let info :=
              mkServiceInfo ty (name +:+ "." +:+ ty) [a] port []
                (env_hostname env +:+ ".local.") in
            match env_service_info env info with
            | Raise e =>
                (Raise e,
                 after ({[z]} ∪ w_open w) [EvZeroconf z; EvServiceInfo info])
            | Ret _ =>
                match env_register env info with
                | Ret _ =>
                    (Ret (Some z, Some info),
                     after ({[z]} ∪ w_open w)
                       [EvZeroconf z; EvServiceInfo info; EvRegister z info;
                        EvPrint (MsgRegistered name ip port)])
                | Raise e =>
                    match env_close env z with
                    | Ret _ =>
                        (Ret (None, None),
                         mkWorld (S z) (w_dicts w)
                           (({[z]} ∪ w_open w) ∖ {[z]})
                           (filter (fun b => fst (fst b) <> z) (w_browsers w))
                           (w_lookups w)
                           (w_trace w ++
                            [EvZeroconf z; EvServiceInfo info;
                             EvRegister z info;
                             EvPrint (MsgRegisterError name e); EvClose z]))
                    | Raise e' =>
                        (Raise e',
                         after ({[z]} ∪ w_open w)
                           [EvZeroconf z; EvServiceInfo info;
                            EvRegister z info;
                            EvPrint (MsgRegisterError name e); EvClose z])
                    end
                end
            end
        end
    end.
Proof.
  destruct w as [n ds o bs l t]. cbv zeta. unfold register_service. run_script.
  destruct (env_zeroconf env n) as [[]|e]; run_script; [|reflexivity].
  destruct (env_inet_aton env ip) as [a|]; run_script; [|reflexivity].
  destruct (env_service_info env _) as [[]|e]; run_script; [|reflexivity].
  destruct (env_register env _) as [[]|e]; run_script; [reflexivity|].
  destruct (env_close env n) as [[]|e']; run_script; reflexivity.
Qed.

Lemma register_service_None (env : Env) (name ty : string) (port : Z)
  (w w1 : World) (ip : string) :
  get_local_ip env w = (Ret ip, w1) ->
  register_service env name ty port None w =
  register_service env name ty port (Some ip) w1.
Proof.
  intros H. unfold register_service.
  rewrite (bind_Ret _ _ _ _ _ H). reflexivity.
Qed.

Lemma register_service_no_address (env : Env) (name ty : string) (port : Z)
  (w : World) (e : exn) :
  env_socket env = Raise e ->
  register_service env name ty port None w = (Raise e, w).
Proof.
  intros H. unfold register_service.
  rewrite (bind_Raise _ _ _ _ _ (get_local_ip_no_socket env w e H)).
  reflexivity.
Qed.

Lemma same_but_store_refl (w : World) : same_but_store w w.
Proof. repeat split. Qed.

Lemma same_but_store_trans (w1 w2 w3 : World) :
  same_but_store w1 w2 -> same_but_store w2 w3 -> same_but_store w1 w3.
Proof.
  unfold same_but_store. intros (?&?&?&?) (?&?&?&?). split_and!; congruence.
Qed.

Lemma dict_at_insert (w : World) (d : ref) (v : PyDict.t service_entry)
  (n : ref) (o : gset ref) (bs : list (ref * string * MyListener))
  (k : nat) (t : list event) :
  dict_at (mkWorld n (<[d := v]> (w_dicts w)) o bs k t) d = v.
Proof. unfold dict_at. cbn. by rewrite lookup_insert_eq. Qed.

Lemma add_service_run (env : Env) (self : MyListener) (z : ref)
  (ty name : string) (w : World) :
  add_service env self z ty name w =
    (Ret tt,
     mkWorld (w_next w)
       (match env_get_service_info env (w_lookups w) ty name with
        | Some info =>
            <[services self :=
                PyDict.set name
                  (mkEntry (map inet_ntoa (info_addresses info)) (info_port info))
                  (dict_at w (services self))]> (w_dicts w)
        | None => w_dicts w
        end)
       (w_open w) (w_browsers w) (S (w_lookups w)) (w_trace w)).
Proof.
  unfold add_service, Zeroconf_get_service_info, dict_setitem, bind.
  destruct (env_get_service_info env (w_lookups w) ty name) as [info|];
    reflexivity.
Qed.

Lemma notify_run (env : Env) (l : MyListener) (z : ref) (ty : string)
  (ev : browse_event) (w : World) :
  exists w',
    notify env l z ty ev w = (Ret tt, w') /\
    same_but_store w w' /\
    w_lookups w' = (w_lookups w + lookups_of [ev])%nat /\
    (forall d, d <> services l -> w_dicts w' !! d = w_dicts w !! d) /\
    dict_at w' (services l) =
      accumulate env ty (w_lookups w) [ev] (dict_at w (services l)).
Proof.
  destruct ev as [name|name|name]; cbn [notify].
  - rewrite add_service_run. eexists. split; [reflexivity|].
    split; [repeat split|]. cbn [w_lookups w_dicts accumulate].
    split; [cbn; lia|].
    destruct (env_get_service_info env (w_lookups w) ty name) as [info|].
    + split; [intros d Hd; by rewrite lookup_insert_ne|].
      apply dict_at_insert.
    + split; [done|reflexivity].
  - exists w. unfold remove_service, ret. split; [reflexivity|].
    split; [apply same_but_store_refl|].
    split; [cbn; lia|]. split; [done|reflexivity].
  - exists w. unfold update_service, ret. split; [reflexivity|].
    split; [apply same_but_store_refl|].
    split; [cbn; lia|]. split; [done|reflexivity].
Qed.

Lemma accumulate_app (env : Env) (ty : string) (n : nat)
  (evs1 evs2 : list browse_event) (d : PyDict.t service_entry) :
  accumulate env ty n (evs1 ++ evs2) d =
  accumulate env ty (n + lookups_of evs1) evs2 (accumulate env ty n evs1 d).
Proof.
  revert n d. induction evs1 as [|ev evs1 IH]; intros n d.
  - cbn. by rewrite Nat.add_0_r.
  - destruct ev as [name|name|name]; cbn [app accumulate]; rewrite IH;
      cbn; repeat f_equal; lia.
Qed.

Lemma dict_at_ext (w w' : World) (d : ref) :
  w_dicts w' !! d = w_dicts w !! d -> dict_at w' d = dict_at w d.
Proof. unfold dict_at. by intros ->. Qed.

Lemma notifications_run (env : Env) (l : MyListener) (z : ref) (ty : string)
  (evs : list browse_event) (w : World) :
  exists w',
    for_each evs (notify env l z ty) w = (Ret tt, w') /\
    same_but_store w w' /\
    w_lookups w' = (w_lookups w + lookups_of evs)%nat /\
    (forall d, d <> services l -> w_dicts w' !! d = w_dicts w !! d) /\
    dict_at w' (services l) =
      accumulate env ty (w_lookups w) evs (dict_at w (services l)).
Proof.
  revert w. induction evs as [|ev evs IH]; intros w.
  - exists w. cbn. unfold ret. split; [reflexivity|].
    split; [apply same_but_store_refl|].
    split; [cbn; lia|]. done.
  - destruct (notify_run env l z ty ev w) as (w1 & Hrun & Hsame & Hlook & Hframe & Hacc).
    destruct (IH w1) as (w2 & Hrun2 & Hsame2 & Hlook2 & Hframe2 & Hacc2).
    exists w2. cbn [for_each]. rewrite (bind_Ret _ _ _ _ _ Hrun).
    split; [exact Hrun2|].
    split; [eapply same_but_store_trans; eassumption|].
    split; [rewrite Hlook2, Hlook; destruct ev; cbn; lia|].
    split; [intros d Hd; rewrite Hframe2, Hframe; done|].
    rewrite Hacc2, Hacc, Hlook.
    change (ev :: evs) with ([ev] ++ evs). by rewrite accumulate_app.
Qed.


Lemma run_browser_run (env : Env) (b : ref * string * MyListener) (w : World) :
  exists w',
    run_browser env b w = (Ret tt, w') /\
    same_but_store w w' /\
    w_lookups w' = (w_lookups w + lookups_of (env_browse env (snd (fst b))))%nat /\
    (forall d, d <> services (snd b) -> w_dicts w' !! d = w_dicts w !! d) /\
    dict_at w' (services (snd b)) =
      accumulate env (snd (fst b)) (w_lookups w) (env_browse env (snd (fst b)))
        (dict_at w (services (snd b))).
Proof. apply notifications_run. Qed.

Lemma run_browsers_run (env : Env) (bs : list (ref * string * MyListener))
  (w : World) :
  exists w',
    for_each bs (run_browser env) w = (Ret tt, w') /\
    same_but_store w w' /\
    (w_lookups w <= w_lookups w')%nat /\
    (forall d,
       Forall (fun b : ref * string * MyListener => services (snd b) <> d) bs ->
       w_dicts w' !! d = w_dicts w !! d).
Proof.
  revert w. induction bs as [|b bs IH]; intros w.
  - exists w. split; [reflexivity|]. split; [apply same_but_store_refl|]. done.
  - destruct (run_browser_run env b w) as (w1 & Hrun & Hsame & Hlook & Hframe & _).
    destruct (IH w1) as (w2 & Hrun2 & Hsame2 & Hlook2 & Hframe2).
    exists w2. cbn [for_each]. rewrite (bind_Ret _ _ _ _ _ Hrun).
    split; [exact Hrun2|].
    split; [eapply same_but_store_trans; eassumption|].
    split; [lia|].
    intros d [Hb Hbs]%Forall_cons. rewrite Hframe2, Hframe; done.
Qed.


(** Whatever the library answers, [discover_services] hands it no record
    to register. *)
Lemma discover_services_quiet (env : Env) (ty : string) (duration : Q)
  (w : World) :
  exists r w' t,
    discover_services env ty duration w = (r, w') /\
    w_trace w' = w_trace w ++ t /\
    registrations t = [].
Proof.
  destruct w as [n ds o bs l t].
  cbn [w_next w_dicts w_open w_browsers w_lookups w_trace].
  unfold discover_services, time_sleep. run_script.
  destruct (env_zeroconf env n) as [[]|e]; run_script.
  2:{ eexists _, _, []. split; [reflexivity|]. cbn [w_trace].
      by rewrite app_nil_r. }
  destruct (env_browser env ty) as [[]|e]; run_script.
  2:{ eexists _, _, _. split; [reflexivity|]. cbn [w_trace]. done. }
  destruct (Qle_bool 0 duration); run_script.
  2:{ eexists _, _, _. split; [reflexivity|]. cbn [w_trace]. done. }
  match goal with |- context [for_each ?bs0 _ ?w0] =>
    destruct (run_browsers_run env bs0 w0)
      as (w1 & Hrun1 & (Hn1 & Ho1 & Hb1 & Ht1) & _)
  end.
  rewrite Hrun1. destruct w1 as [n1 ds1 o1 bs1 l1 t1].
  cbn [w_next w_open w_browsers w_trace w_lookups w_dicts] in *. subst.
  run_script.
  destruct (env_close env n) as [[]|e]; run_script;
    eexists _, _, _; (split; [reflexivity|]); cbn [w_trace]; done.
Qed.

Lemma for_each_print_run {A : Type} (items : list A) (f : A -> message)
  (w : World) :
  for_each items (fun x => print (f x)) w =
    (Ret tt,
     mkWorld (w_next w) (w_dicts w) (w_open w) (w_browsers w) (w_lookups w)
       (w_trace w ++ map (fun x => EvPrint (f x)) items)).
Proof.
  revert w. induction items as [|x items IH]; intros w; cbn [for_each map].
  - rewrite app_nil_r. destruct w; reflexivity.
  - unfold bind, print, emit. rewrite IH.
    cbn [w_next w_dicts w_open w_browsers w_lookups w_trace].
    rewrite <- app_assoc. reflexivity.
Qed.

Lemma registrations_app (t1 t2 : list event) :
  registrations (t1 ++ t2) = registrations t1 ++ registrations t2.
Proof. apply omap_app. Qed.

Lemma registrations_listing (items : list (string * service_entry)) :
  registrations (listing_events items) = [].
Proof. induction items as [|item items IH]; [reflexivity|exact IH]. Qed.

(** The run of [test_mdns], by the answers of the operating system and of
    the library. *)
Lemma test_mdns_run (env : Env) (w : World) :
  match env_socket env with
  | Raise e => test_mdns env w = (Raise e, w)
  | Ret _ =>
      exists (ip : string) (w1 : World),
        get_local_ip env w = (Ret ip, w1) /\
        let s := w_next w in
        let z := S s in
        let pre := [EvSocket s; EvConnect s "8.8.8.8" 80; EvSocketClose s;
                    EvPrint (MsgRegistering "test-service")] in
        match env_zeroconf env z with
        | Raise e =>
            exists w', test_mdns env w = (Raise e, w') /\
              w_trace w' = w_trace w ++ pre
        | Ret _ =>
            match env_inet_aton env ip with
            | None =>
                exists e w', test_mdns env w = (Raise e, w') /\
                  w_trace w' = w_trace w ++ pre ++ [EvZeroconf z]
            | Some a =>
                let info :=
                  mkServiceInfo "_http._tcp.local."
                    "test-service._http._tcp.local." [a] 8080 []
                    (env_hostname env +:+ ".local.") in
                match env_service_info env info with
                | Raise e =>
                    exists w', test_mdns env w = (Raise e, w') /\
                      w_trace w' =
                        w_trace w ++ pre ++ [EvZeroconf z; EvServiceInfo info]
                | Ret _ =>
                    match env_register env info with
                    | Raise e =>
                        match env_close env z with
                        | Ret _ =>
                            exists w', test_mdns env w = (Ret tt, w') /\
                              w_open w' = ({[z]} ∪ w_open w) ∖ {[z]} /\
                              w_trace w' = w_trace w ++ pre ++
                                [EvZeroconf z; EvServiceInfo info;
                                 EvRegister z info;
                                 EvPrint (MsgRegisterError "test-service" e);
                                 EvClose z; EvPrint MsgRegistrationFailed]
                        | Raise e' =>
                            exists w', test_mdns env w = (Raise e', w') /\
                              w_open w' = {[z]} ∪ w_open w /\
                              w_trace w' = w_trace w ++ pre ++
                                [EvZeroconf z; EvServiceInfo info;
                                 EvRegister z info;
                                 EvPrint (MsgRegisterError "test-service" e);
                                 EvClose z]
                        end
                    | Ret _ =>
                        exists w' t, test_mdns env w = (Ret tt, w') /\
                          w_trace w' = w_trace w ++ pre ++
                            [EvZeroconf z; EvServiceInfo info;
                             EvRegister z info;
                             EvPrint (MsgRegistered "test-service" ip 8080);
                             EvThreadStart] ++ t /\
                          registrations t = []
                    end
                end
            end
        end
  end.
Proof.
  destruct (env_socket env) as [[]|e] eqn:Hs.
  2:{ unfold test_mdns.
      by rewrite (bind_Raise _ _ _ _ _ (get_local_ip_no_socket env w e Hs)). }
  destruct (get_local_ip_run env w Hs) as (ip & Hip & _).
  eexists ip, _. split; [exact Hip|]. cbv zeta.
  destruct w as [n ds o bs l t].
  cbn [w_next w_dicts w_open w_browsers w_lookups w_trace] in *.
  unfold test_mdns.
  set (line := fun item : string * service_entry => print _).
  run_script. rewrite Hip. run_script.
  rewrite register_service_run. run_script.
  change ("test-service" +:+ "." +:+ "_http._tcp.local.")
    with "test-service._http._tcp.local.".
  destruct (env_zeroconf env (S n)) as [[]|e]; run_script.
  2:{ eexists. split; reflexivity. }
  destruct (env_inet_aton env ip) as [a|]; run_script.
  2:{ eexists _, _. split; reflexivity. }
  destruct (env_service_info env _) as [[]|e]; run_script.
  2:{ eexists. split; reflexivity. }
  destruct (env_register env _) as [[]|e]; run_script.
  - match goal with |- context [discover_services env ?ty ?dur ?w0] =>
      destruct (discover_services_quiet env ty dur w0)
        as (r & w2 & td & Hrun & Htrace & Hreg)
    end.
    destruct w2 as [n2 ds2 o2 bs2 l2 t2].
    cbn [w_next w_dicts w_open w_browsers w_lookups w_trace] in *.
    rewrite Hrun. subst t2. destruct r as [d|e]; run_script.
    + subst line. rewrite for_each_print_run.
      cbn [w_next w_dicts w_open w_browsers w_lookups w_trace].
      eexists _, _. split; [reflexivity|]. cbn [w_trace]. split.
      * rewrite <- ?app_assoc. cbn [app]. reflexivity.
      * rewrite !registrations_app, Hreg.
        apply (registrations_listing _).
    + subst line. rewrite for_each_print_run.
      cbn [w_next w_dicts w_open w_browsers w_lookups w_trace].
      eexists _, _. split; [reflexivity|]. cbn [w_trace]. split.
      * rewrite <- ?app_assoc. cbn [app]. reflexivity.
      * rewrite !registrations_app, Hreg.
        apply (registrations_listing _).
  - destruct (env_close env (S n)) as [[]|e']; run_script.
    + eexists. split; [reflexivity|]. split; reflexivity.
    + eexists. split; [reflexivity|]. split; reflexivity.
Qed.

(** ** Registration *)

(** Either an address is settled, or none was supplied and no socket
    could be created to find one. *)
Lemma address_used_cases (env : Env) (ip_address : option string) (w : World) :
  (exists ip, address_used env ip_address w ip) \/
  (ip_address = None /\ exists e, env_socket env = Raise e).
Proof.
  destruct ip_address as [ip|]; cbn [address_used].
  - left. by exists ip.
  - destruct (env_socket env) as [[]|e] eqn:Hs.
    + left. destruct (get_local_ip_run env w Hs) as (ip & Hip & _).
      exists ip. by rewrite Hip.
    + right. split; [done|]. by exists e.
Qed.

Lemma address_used_socket (env : Env) (w : World) (ip : string) :
  address_used env None w ip -> env_socket env = Ret tt.
Proof.
  cbn [address_used]. destruct (env_socket env) as [[]|e] eqn:Hs; [done|].
  rewrite (get_local_ip_no_socket env w e Hs). discriminate.
Qed.

(** [register_service] first settles the address; from there on it runs as
    if that address had been supplied. *)
Lemma register_service_resolves (env : Env) (name ty : string) (port : Z)
  (ip_address : option string) (w : World) (ip : string) :
  address_used env ip_address w ip ->
  exists w1,
    register_service env name ty port ip_address w =
      register_service env name ty port (Some ip) w1 /\
    w_next w1 = registration_instance ip_address w /\
    w_trace w1 = w_trace w ++ resolution_events ip_address w /\
    w_open w1 = w_open w.
Proof.
  intros Hip. destruct ip_address as [supplied|].
  - cbn [address_used] in Hip. subst. exists w.
    cbn [registration_instance resolution_events]. rewrite app_nil_r. done.
  - pose proof (address_used_socket env w ip Hip) as Hs.
    cbn [address_used] in Hip.
    destruct (get_local_ip_run env w Hs) as (ip0 & Hrun & _).
    rewrite Hrun in Hip. cbn [fst] in Hip. injection Hip as ->.
    eexists. split; [by apply register_service_None|]. done.
Qed.

(** The run of [register_service] on the settled address, by the answers
    of the library: what it returns or raises, the events it adds, and
    whether the instance it created is open afterwards. *)
Lemma register_service_outcome (env : Env) (name ty : string) (port : Z)
  (ip_address : option string) (w : World) (ip : string) :
  address_used env ip_address w ip ->
  let pre := resolution_events ip_address w in
  let z := registration_instance ip_address w in
  let run := register_service env name ty port ip_address w in
  match env_zeroconf env z with
  | Raise e =>
      exists w', run = (Raise e, w') /\ events_since w w' = pre /\
        w_open w' = w_open w
  | Ret _ =>
      match env_inet_aton env ip with
      | None =>
          exists w',
            run = (Raise (Exception "OSError"
                            "illegal IP address string passed to inet_aton"),
                   w') /\
            events_since w w' = pre ++ [EvZeroconf z] /\
            z ∈ w_open w'
      | Some a =>
          let info :=
            mkServiceInfo ty (name +:+ "." +:+ ty) [a] port []
              (env_hostname env +:+ ".local.") in
          match env_service_info env info with
          | Raise e =>
              exists w', run = (Raise e, w') /\
                events_since w w' = pre ++ [EvZeroconf z; EvServiceInfo info] /\
                z ∈ w_open w'
          | Ret _ =>
              match env_register env info with
              | Ret _ =>
                  exists w', run = (Ret (Some z, Some info), w') /\
                    events_since w w' =
                      pre ++ [EvZeroconf z; EvServiceInfo info;
                              EvRegister z info;
                              EvPrint (MsgRegistered name ip port)] /\
                    z ∈ w_open w'
              | Raise e =>
                  match env_close env z with
                  | Ret _ =>
                      exists w', run = (Ret (None, None), w') /\
                        events_since w w' =
                          pre ++ [EvZeroconf z; EvServiceInfo info;
                                  EvRegister z info;
                                  EvPrint (MsgRegisterError name e);
                                  EvClose z] /\
                        (z ∉ w_open w')
                  | Raise e' =>
                      exists w', run = (Raise e', w') /\
                        events_since w w' =
                          pre ++ [EvZeroconf z; EvServiceInfo info;
                                  EvRegister z info;
                                  EvPrint (MsgRegisterError name e);
                                  EvClose z] /\
                        z ∈ w_open w'
                  end
              end
          end
      end
  end.
Proof.
  intros Hip. cbv zeta.
  destruct (register_service_resolves env name ty port ip_address w ip Hip)
    as (w1 & -> & Hz & Ht & Ho).
  rewrite register_service_run. cbv zeta. rewrite Hz.
  assert (forall o bs l t',
    events_since w
      (mkWorld (S (registration_instance ip_address w)) (w_dicts w1) o
         bs l (w_trace w1 ++ t')) =
    resolution_events ip_address w ++ t') as Hev.
  { intros o bs l t'. apply events_since_app. cbn [w_trace]. rewrite Ht.
    by rewrite <- app_assoc. }
  assert (forall X : gset ref,
    registration_instance ip_address w ∈
      {[registration_instance ip_address w]} ∪ X) as Hin.
  { intros X. apply elem_of_union_l. by apply elem_of_singleton. }
  destruct (env_zeroconf env _) as [[]|e].
  2:{ exists w1. split; [reflexivity|]. split; [|exact Ho].
      apply events_since_app. exact Ht. }
  destruct (env_inet_aton env ip) as [a|].
  2:{ eexists. split; [reflexivity|]. split; [apply Hev|apply Hin]. }
  destruct (env_service_info env _) as [[]|e].
  2:{ eexists. split; [reflexivity|]. split; [apply Hev|apply Hin]. }
  destruct (env_register env _) as [[]|e].
  { eexists. split; [reflexivity|]. split; [apply Hev|apply Hin]. }
  destruct (env_close env _) as [[]|e'].
  - eexists. split; [reflexivity|]. split; [apply Hev|].
    cbn [w_open]. apply not_elem_of_difference. right.
    by apply elem_of_singleton.
  - eexists. split; [reflexivity|]. split; [apply Hev|apply Hin].
Qed.

Lemma registrations_resolution (ip_address : option string) (w : World) :
  registrations (resolution_events ip_address w) = [].
Proof. destruct ip_address; reflexivity. Qed.


(** Every record [register_service] builds is made of its arguments, the
    host name and the packed form of the settled address. *)
Lemma register_service_builds (env : Env) (name ty : string) (port : Z)
  (ip_address : option string) (w : World)
  (r : outcome (option ref * option ServiceInfo)) (w' : World)
  (info : ServiceInfo) :
  register_service env name ty port ip_address w = (r, w') ->
  EvServiceInfo info ∈ events_since w w' ->
  exists ip a,
    address_used env ip_address w ip /\
    env_zeroconf env (registration_instance ip_address w) = Ret tt /\
    env_inet_aton env ip = Some a /\
    info = mkServiceInfo ty (name +:+ "." +:+ ty) [a] port []
             (env_hostname env +:+ ".local.").
Proof.
  intros Hrun Hin.
  destruct (address_used_cases env ip_address w)
    as [(ip & Hip)|(-> & e & Hs)].
  2:{ rewrite (register_service_no_address env name ty port w e Hs) in Hrun.
      injection Hrun as _ <-. rewrite events_since_refl in Hin.
      by apply elem_of_nil in Hin. }
  pose proof (register_service_outcome env name ty port ip_address w ip Hip)
    as H.
  cbv zeta in H. exists ip.
  destruct (env_zeroconf env _) as [[]|e].
  2:{ read_outcome H Hrun Hev. rewrite Hev in Hin.
      destruct ip_address; cbn [resolution_events] in Hin; elem_cases Hin. }
  destruct (env_inet_aton env ip) as [a|].
  2:{ read_outcome H Hrun Hev. rewrite Hev in Hin. in_events Hin ip_address. }
  exists a. split; [exact Hip|]. split; [reflexivity|]. split; [reflexivity|].
  destruct (env_service_info env _) as [[]|e].
  2:{ read_outcome H Hrun Hev. rewrite Hev in Hin. in_events Hin ip_address.
      by injection Hin. }
  destruct (env_register env _) as [[]|e].
  { read_outcome H Hrun Hev. rewrite Hev in Hin. in_events Hin ip_address.
    by injection Hin. }
  destruct (env_close env _) as [[]|e'];
    read_outcome H Hrun Hev; rewrite Hev in Hin; in_events Hin ip_address;
    by injection Hin.
Qed.

(** The record handed to the library is the record built, on the instance
    created, and the constructor accepted it. *)
Lemma register_service_submits (env : Env) (name ty : string) (port : Z)
  (ip_address : option string) (w : World)
  (r : outcome (option ref * option ServiceInfo)) (w' : World)
  (z : ref) (info : ServiceInfo) :
  register_service env name ty port ip_address w = (r, w') ->
  EvRegister z info ∈ events_since w w' ->
  z = registration_instance ip_address w /\
  EvServiceInfo info ∈ events_since w w' /\
  EvZeroconf z ∈ events_since w w' /\
  env_service_info env info = Ret tt /\
  exists ip, address_used env ip_address w ip.
Proof.
  intros Hrun Hin.
  destruct (address_used_cases env ip_address w)
    as [(ip & Hip)|(-> & e & Hs)].
  2:{ rewrite (register_service_no_address env name ty port w e Hs) in Hrun.
      injection Hrun as _ <-. rewrite events_since_refl in Hin.
      by apply elem_of_nil in Hin. }
  pose proof (register_service_outcome env name ty port ip_address w ip Hip)
    as H.
  cbv zeta in H.
  assert (forall (pre : list event) (z0 : ref) (i0 : ServiceInfo)
            (rest : list event),
            EvServiceInfo i0 ∈ pre ++ EvZeroconf z0 :: EvServiceInfo i0 :: rest /\
            EvZeroconf z0 ∈ pre ++ EvZeroconf z0 :: EvServiceInfo i0 :: rest)
    as Hmem.
  { intros pre z0 i0 rest. split; apply elem_of_app; right.
    - apply list_elem_of_further, list_elem_of_here.
    - apply list_elem_of_here. }
  destruct (env_zeroconf env _) as [[]|e].
  2:{ read_outcome H Hrun Hev. rewrite Hev in Hin.
      destruct ip_address; cbn [resolution_events] in Hin; elem_cases Hin. }
  destruct (env_inet_aton env ip) as [a|].
  2:{ read_outcome H Hrun Hev. rewrite Hev in Hin. in_events Hin ip_address. }
  destruct (env_service_info env _) as [[]|e] eqn:Hok.
  2:{ read_outcome H Hrun Hev. rewrite Hev in Hin. in_events Hin ip_address. }
  destruct (env_register env _) as [[]|e].
  { read_outcome H Hrun Hev. rewrite Hev in Hin |- *.
    in_events Hin ip_address. injection Hin as -> ->.
    split; [done|]. split; [apply Hmem|]. split; [apply Hmem|].
    split; [exact Hok|]. by exists ip. }
  destruct (env_close env _) as [[]|e'];
    read_outcome H Hrun Hev; rewrite Hev in Hin |- *;
    in_events Hin ip_address; injection Hin as -> ->;
    (split; [done|]); (split; [apply Hmem|]); (split; [apply Hmem|]);
    (split; [exact Hok|]); by exists ip.
Qed.







(** ** Local address resolution *)




(** ** The record that is registered *)

(** When the instance is created and [inet_aton] accepts the address,
    [register_service] gets as far as building the record. *)
Lemma register_service_reaches_record (env : Env) (name ty : string)
  (port : Z) (ip_address : option string) (w : World) (ip : string) (a : ipv4) :
  address_used env ip_address w ip ->
  env_zeroconf env (registration_instance ip_address w) = Ret tt ->
  env_inet_aton env ip = Some a ->
  exists r w',
    register_service env name ty port ip_address w = (r, w') /\
    EvServiceInfo
      (mkServiceInfo ty (name +:+ "." +:+ ty) [a] port []
         (env_hostname env +:+ ".local.")) ∈ events_since w w'.
Proof.
  intros Hip Hz Ha.
  pose proof (register_service_outcome env name ty port ip_address w ip Hip)
    as H.
  cbv zeta in H. rewrite Hz, Ha in H.
  assert (forall (pre rest : list event) (z0 : ref) (i0 : ServiceInfo),
            EvServiceInfo i0 ∈ pre ++ EvZeroconf z0 :: EvServiceInfo i0 :: rest)
    as Hmem.
  { intros pre rest z0 i0. apply elem_of_app. right.
    apply list_elem_of_further, list_elem_of_here. }
  destruct (env_service_info env _) as [[]|e].
  2:{ destruct H as (w' & Hrun & Hev & _). eexists _, w'.
      split; [exact Hrun|]. rewrite Hev. apply Hmem. }
  destruct (env_register env _) as [[]|e].
  { destruct H as (w' & Hrun & Hev & _). eexists _, w'.
    split; [exact Hrun|]. rewrite Hev. apply Hmem. }
  destruct (env_close env _) as [[]|e'];
    destruct H as (w' & Hrun & Hev & _); eexists _, w';
    (split; [exact Hrun|]); rewrite Hev; apply Hmem.
Qed.

(** C7. Every record [register_service] builds, and so every record it
    hands to the library, carries one address: the packed form of the
    address it was given or, when it was given [None], of the address
    [get_local_ip] returns; with [None] the run is that of
    [get_local_ip] followed by the run on its result.  Such a record is
    built whenever the Zeroconf instance is created and [inet_aton]
    accepts the address. *)
Theorem register_service_address (env : Env) (name ty : string) (port : Z)
  (ip_address : option string) (w : World) :
  (forall r w' info,
     register_service env name ty port ip_address w = (r, w') ->
     EvServiceInfo info ∈ events_since w w' ->
     exists ip a,
       address_used env ip_address w ip /\
       env_inet_aton env ip = Some a /\
       info_addresses info = [a]) /\
  (forall r w' z info,
     register_service env name ty port ip_address w = (r, w') ->
     EvRegister z info ∈ events_since w w' ->
     exists ip a,
       address_used env ip_address w ip /\
       env_inet_aton env ip = Some a /\
       info_addresses info = [a]) /\
  (forall ip w1,
     ip_address = None ->
     get_local_ip env w = (Ret ip, w1) ->
     register_service env name ty port ip_address w =
     register_service env name ty port (Some ip) w1) /\
  (forall ip a,
     address_used env ip_address w ip ->
     env_zeroconf env (registration_instance ip_address w) = Ret tt ->
     env_inet_aton env ip = Some a ->
     exists r w' info,
       register_service env name ty port ip_address w = (r, w') /\
       EvServiceInfo info ∈ events_since w w' /\
       info_addresses info = [a]).
Proof.
  assert (forall r w' info,
            register_service env name ty port ip_address w = (r, w') ->
            EvServiceInfo info ∈ events_since w w' ->
            exists ip a,
              address_used env ip_address w ip /\
              env_inet_aton env ip = Some a /\
              info_addresses info = [a]) as Hbuilt.
  { intros r w' info Hrun Hin.
    destruct (register_service_builds env name ty port ip_address w r w' info
                Hrun Hin) as (ip & a & Hip & _ & Ha & ->).
    by exists ip, a. }
  split; [exact Hbuilt|]. split; [|split].
  - intros r w' z info Hrun Hin. apply (Hbuilt r w' info Hrun).
    by destruct (register_service_submits env name ty port ip_address w r w'
                   z info Hrun Hin) as (_ & H & _).
  - intros ip w1 -> Hrun. by apply register_service_None.
  - intros ip a Hip Hz Ha.
    destruct (register_service_reaches_record env name ty port ip_address w
                ip a Hip Hz Ha) as (r & w' & Hrun & Hin).
    by eexists r, w', _.
Qed.

(** Registering on ["10.0.0.7"] advertises that address. *)
Lemma register_service_address_witness :
  exists r w' info,
    register_service home_network "test-service" "_http._tcp.local." 8080
      (Some "10.0.0.7") initial_world = (r, w') /\
    EvServiceInfo info ∈ events_since initial_world w' /\
    info_addresses info = [Packed x0a x00 x00 x07].
Proof.
  destruct (proj2 (proj2 (proj2 (register_service_address home_network
                     "test-service" "_http._tcp.local." 8080
                     (Some "10.0.0.7") initial_world)))
              "10.0.0.7" (Packed x0a x00 x00 x07) eq_refl eq_refl eq_refl)
    as (r & w' & info & Hrun & Hin & Haddr).
  exists r, w', info.
  split; [exact Hrun|]. split; [exact Hin|exact Haddr].
Defined.

(** C10. Whatever name, type and port are given, every record
    [register_service] builds, hands to the library or returns is named
    [service_name.service_type] and has the host name followed by
    [".local."] as its server; such a record is built whenever the
    Zeroconf instance is created and [inet_aton] accepts the address. *)
Theorem register_service_names (env : Env) (name ty : string) (port : Z)
  (ip_address : option string) (w : World) :
  (forall r w' info,
     register_service env name ty port ip_address w = (r, w') ->
     EvServiceInfo info ∈ events_since w w' ->
     info_name info = name +:+ "." +:+ ty /\
     info_server info = env_hostname env +:+ ".local." /\
     info_type info = ty /\ info_port info = port /\
     info_properties info = []) /\
  (forall r w' z info,
     register_service env name ty port ip_address w = (r, w') ->
     EvRegister z info ∈ events_since w w' ->
     info_name info = name +:+ "." +:+ ty /\
     info_server info = env_hostname env +:+ ".local.") /\
  (forall w' z info,
     register_service env name ty port ip_address w =
       (Ret (Some z, Some info), w') ->
     info_name info = name +:+ "." +:+ ty /\
     info_server info = env_hostname env +:+ ".local.") /\
  (forall ip a,
     address_used env ip_address w ip ->
     env_zeroconf env (registration_instance ip_address w) = Ret tt ->
     env_inet_aton env ip = Some a ->
     exists r w' info,
       register_service env name ty port ip_address w = (r, w') /\
       EvServiceInfo info ∈ events_since w w' /\
       info_name info = name +:+ "." +:+ ty /\
       info_server info = env_hostname env +:+ ".local.").
Proof.
  assert (forall r w' info,
            register_service env name ty port ip_address w = (r, w') ->
            EvServiceInfo info ∈ events_since w w' ->
            info_name info = name +:+ "." +:+ ty /\
            info_server info = env_hostname env +:+ ".local." /\
            info_type info = ty /\ info_port info = port /\
            info_properties info = []) as Hbuilt.
  { intros r w' info Hrun Hin.
    by destruct (register_service_builds env name ty port ip_address w r w'
                   info Hrun Hin) as (ip & a & _ & _ & _ & ->). }
  assert (forall r w' z info,
            register_service env name ty port ip_address w = (r, w') ->
            EvRegister z info ∈ events_since w w' ->
            info_name info = name +:+ "." +:+ ty /\
            info_server info = env_hostname env +:+ ".local.") as Hsub.
  { intros r w' z info Hrun Hin.
    destruct (register_service_submits env name ty port ip_address w r w'
                z info Hrun Hin) as (_ & H & _).
    by destruct (Hbuilt r w' info Hrun H) as (? & ? & _). }
  split; [exact Hbuilt|]. split; [exact Hsub|]. split.
  - intros w' z info Hrun.
    destruct (address_used_cases env ip_address w)
      as [(ip & Hip)|(-> & e & Hs)].
    2:{ rewrite (register_service_no_address env name ty port w e Hs) in Hrun.
        discriminate. }
    pose proof (register_service_outcome env name ty port ip_address w ip Hip)
      as H.
    cbv zeta in H.
    destruct (env_zeroconf env _) as [[]|e].
    2:{ destruct H as (w0 & Hrun0 & _). rewrite Hrun in Hrun0. discriminate. }
    destruct (env_inet_aton env ip) as [a|].
    2:{ destruct H as (w0 & Hrun0 & _). rewrite Hrun in Hrun0. discriminate. }
    destruct (env_service_info env _) as [[]|e].
    2:{ destruct H as (w0 & Hrun0 & _). rewrite Hrun in Hrun0. discriminate. }
    destruct (env_register env _) as [[]|e].
    { destruct H as (w0 & Hrun0 & _). rewrite Hrun in Hrun0.
      by injection Hrun0 as _ -> _. }
    destruct (env_close env _) as [[]|e'];
      destruct H as (w0 & Hrun0 & _); rewrite Hrun in Hrun0; discriminate.
  - intros ip a Hip Hz Ha.
    destruct (register_service_reaches_record env name ty port ip_address w
                ip a Hip Hz Ha) as (r & w' & Hrun & Hin).
    by eexists r, w', _.
Qed.

(** The record of the script's own service. *)
Lemma register_service_names_witness :
  exists r w' info,
    register_service home_network "test-service" "_http._tcp.local." 8080
      None initial_world = (r, w') /\
    EvServiceInfo info ∈ events_since initial_world w' /\
    info_name info = "test-service._http._tcp.local." /\
    info_server info = "host.local.".
Proof.
  destruct (proj2 (proj2 (proj2 (register_service_names home_network
                     "test-service" "_http._tcp.local." 8080 None
                     initial_world)))
              "192.168.1.10" lan_address eq_refl eq_refl eq_refl)
    as (r & w' & info & Hrun & Hin & Hname & Hserver).
  exists r, w', info.
  split; [exact Hrun|]. split; [exact Hin|].
  split; [exact Hname|exact Hserver].
Defined.

(** ** Discovery *)

Lemma accumulate_wf (env : Env) (ty : string) (n : nat)
  (evs : list browse_event) (d : PyDict.t service_entry) :
  PyDict.wf d -> PyDict.wf (accumulate env ty n evs d).
Proof.
  revert n d. induction evs as [|[name|name|name] evs IH]; intros n d Hd;
    cbn [accumulate]; [done| |by apply IH..].
  apply IH. destruct (env_get_service_info env n ty name); [|done].
  by apply wf_set.
Qed.




(** ** The listener *)

(** C5. [remove_service] and [update_service] change nothing at all, so a
    run of notifications leaves the world that its [Added] notifications
    alone leave, and a run without [Added] notifications leaves the world
    as it was. *)
Theorem remove_update_are_noops (env : Env) (self : MyListener) (z : ref)
  (ty : string) :
  (forall name w, remove_service self z ty name w = (Ret tt, w)) /\
  (forall name w, update_service self z ty name w = (Ret tt, w)) /\
  (forall evs w,
     for_each evs (notify env self z ty) w =
     for_each (List.filter is_added evs) (notify env self z ty) w) /\
  (forall evs w,
     Forall (fun ev => is_added ev = false) evs ->
     for_each evs (notify env self z ty) w = (Ret tt, w)).
Proof.
  split; [reflexivity|]. split; [reflexivity|]. split.
  - intros evs. induction evs as [|[name|name|name] evs IH]; intros w;
      cbn [List.filter is_added for_each]; [reflexivity| |apply IH..].
    unfold bind. destruct (notify env self z ty (Added name) w) as [[[]|e] w1];
      [apply IH|reflexivity].
  - intros evs w Hevs. induction Hevs as [|[name|name|name] evs Hev _ IH];
      [reflexivity|discriminate|exact IH..].
Qed.

(** Removing and updating the printer leaves its entry in place. *)
Lemma remove_update_are_noops_witness :
  for_each [Removed "printer._http._tcp.local.";
            Updated "printer._http._tcp.local."]
    (notify home_network (mkListener 0%nat) 1%nat "_http._tcp.local.")
    initial_world =
  (Ret tt, initial_world).
Proof.
  apply (proj2 (proj2 (proj2 (remove_update_are_noops home_network
                                (mkListener 0%nat) 1%nat "_http._tcp.local.")))).
  repeat constructor.
Defined.

(** What [add_service] stores when the service resolves. *)
Lemma add_service_resolved (env : Env) (self : MyListener) (z : ref)
  (ty name : string) (w : World) (info : ServiceInfo) :
  env_get_service_info env (w_lookups w) ty name = Some info ->
  exists w',
    add_service env self z ty name w = (Ret tt, w') /\
    same_but_store w w' /\
    w_lookups w' = S (w_lookups w) /\
    dict_at w' (services self) =
      PyDict.set name
        (mkEntry (map inet_ntoa (info_addresses info)) (info_port info))
        (dict_at w (services self)) /\
    (forall d, d <> services self -> dict_at w' d = dict_at w d).
Proof.
  intros Hinfo. rewrite add_service_run, Hinfo. eexists.
  split; [reflexivity|]. split; [repeat split|]. split; [reflexivity|].
  split; [apply dict_at_insert|].
  intros d Hd. apply dict_at_ext. cbn [w_dicts]. by apply lookup_insert_ne.
Qed.

(** C6. Of two [Added] notifications for one name, both resolving, with
    any notifications between them, the first stores its addresses and
    port under the name and the second replaces them: afterwards the name
    has exactly one entry, it holds the second notification's addresses
    and port, and the entries under other names are those from before the
    second notification. *)
Theorem add_service_last_write_wins (env : Env) (self : MyListener) (z : ref)
  (ty name : string) (mid : list browse_event) (w : World)
  (info1 info2 : ServiceInfo) :
  PyDict.wf (dict_at w (services self)) ->
  env_get_service_info env (w_lookups w) ty name = Some info1 ->
  env_get_service_info env (S (w_lookups w) + lookups_of mid) ty name =
    Some info2 ->
  exists w1 w2 w',
    add_service env self z ty name w = (Ret tt, w1) /\
    PyDict.get name (dict_at w1 (services self)) =
      Some (mkEntry (map inet_ntoa (info_addresses info1)) (info_port info1)) /\
    for_each mid (notify env self z ty) w1 = (Ret tt, w2) /\
    add_service env self z ty name w2 = (Ret tt, w') /\
    PyDict.get name (dict_at w' (services self)) =
      Some (mkEntry (map inet_ntoa (info_addresses info2)) (info_port info2)) /\
    PyDict.count name (dict_at w' (services self)) = 1%nat /\
    (forall other,
       other <> name ->
       PyDict.get other (dict_at w' (services self)) =
       PyDict.get other (dict_at w2 (services self))).
Proof.
  intros Hwf Hinfo1 Hinfo2.
  destruct (add_service_resolved env self z ty name w info1 Hinfo1)
    as (w1 & Hrun1 & _ & Hlook1 & Hd1 & _).
  destruct (notifications_run env self z ty mid w1)
    as (w2 & Hrun2 & _ & Hlook2 & _ & Hd2).
  assert (env_get_service_info env (w_lookups w2) ty name = Some info2)
    as Hinfo2' by (by rewrite Hlook2, Hlook1).
  destruct (add_service_resolved env self z ty name w2 info2 Hinfo2')
    as (w3 & Hrun3 & _ & _ & Hd3 & _).
  exists w1, w2, w3. split; [exact Hrun1|].
  split; [rewrite Hd1; apply get_set_eq|].
  split; [exact Hrun2|]. split; [exact Hrun3|].
  rewrite Hd3. split; [apply get_set_eq|]. split.
  - apply count_set. rewrite Hd2. apply accumulate_wf. rewrite Hd1.
    by apply wf_set.
  - intros other Hother. by apply get_set_ne.
Qed.

Lemma add_service_last_write_wins_witness :
  exists w',
    for_each [Added "printer._http._tcp.local.";
              Updated "printer._http._tcp.local.";
              Added "printer._http._tcp.local."]
      (notify printer_moved (mkListener 0%nat) 1%nat "_http._tcp.local.")
      initial_world = (Ret tt, w') /\
    PyDict.get "printer._http._tcp.local." (dict_at w' 0%nat) =
      Some (mkEntry ["192.168.1.21"] 631) /\
    PyDict.count "printer._http._tcp.local." (dict_at w' 0%nat) = 1%nat.
Proof.
  destruct (add_service_last_write_wins printer_moved (mkListener 0%nat) 1%nat
              "_http._tcp.local." "printer._http._tcp.local."
              [Updated "printer._http._tcp.local."] initial_world
              (mkServiceInfo "_http._tcp.local." "printer._http._tcp.local."
                 [Packed xc0 xa8 x01 x14] 631 [] "printer.local.")
              (mkServiceInfo "_http._tcp.local." "printer._http._tcp.local."
                 [Packed xc0 xa8 x01 x15] 631 [] "printer.local.")
              NoDup_nil_2 eq_refl eq_refl)
    as (w1 & w2 & w' & Hrun1 & _ & Hrun2 & Hrun3 & Hget & Hcount & _).
  exists w'. split; [|split; [exact Hget|exact Hcount]].
  cbn [for_each notify].
  rewrite (bind_Ret _ _ _ _ _ Hrun1).
  cbn [for_each notify] in Hrun2. unfold bind in Hrun2 |- *.
  destruct (update_service (mkListener 0%nat) 1%nat "_http._tcp.local."
              "printer._http._tcp.local." w1) as [[[]|e] w1'];
    [|discriminate].
  injection Hrun2 as ->. by rewrite Hrun3.
Defined.

(** C2, as stated, fails: a service that resolves without any IPv4 address
    is stored with an empty address list. *)
Lemma add_service_empty_addresses :
  exists w',
    env_get_service_info ipv6_network (w_lookups initial_world)
      "_http._tcp.local." "nas._http._tcp.local." = Some ipv6_only /\
    add_service ipv6_network (mkListener 0%nat) 1%nat "_http._tcp.local."
      "nas._http._tcp.local." initial_world = (Ret tt, w') /\
    PyDict.get "nas._http._tcp.local." (dict_at w' 0%nat) =
      Some (mkEntry [] 8080).
Proof.
  exists (snd (add_service ipv6_network (mkListener 0%nat) 1%nat
                 "_http._tcp.local." "nas._http._tcp.local." initial_world)).
  split; [reflexivity|]. split; reflexivity.
Qed.

(** C2, amended. The entry [add_service] stores for a service that
    resolves lists the text of each IPv4 address of the service's record,
    in order: as many addresses as the record has, and none when it has
    none. *)
Theorem add_service_stores_addresses (env : Env) (self : MyListener) (z : ref)
  (ty name : string) (w : World) (info : ServiceInfo) :
  env_get_service_info env (w_lookups w) ty name = Some info ->
  exists w' entry,
    add_service env self z ty name w = (Ret tt, w') /\
    PyDict.get name (dict_at w' (services self)) = Some entry /\
    addresses entry = map inet_ntoa (info_addresses info) /\
    port entry = info_port info /\
    length (addresses entry) = length (info_addresses info) /\
    (addresses entry <> [] <-> info_addresses info <> []).
Proof.
  intros Hinfo.
  destruct (add_service_resolved env self z ty name w info Hinfo)
    as (w' & Hrun & _ & _ & Hd & _).
  exists w'. eexists. split; [exact Hrun|].
  split; [rewrite Hd; apply get_set_eq|]. cbn [addresses port].
  split; [reflexivity|]. split; [reflexivity|].
  split; [apply length_map|].
  destruct (info_addresses info); cbn; split; congruence.
Qed.

Lemma add_service_stores_addresses_witness :
  exists w',
    add_service home_network (mkListener 0%nat) 1%nat "_http._tcp.local."
      "printer._http._tcp.local." initial_world = (Ret tt, w') /\
    PyDict.get "printer._http._tcp.local." (dict_at w' 0%nat) =
      Some (mkEntry ["192.168.1.20"] 631).
Proof.
  destruct (add_service_stores_addresses home_network (mkListener 0%nat) 1%nat
              "_http._tcp.local." "printer._http._tcp.local." initial_world
              printer eq_refl)
    as (w' & [addrs p] & Hrun & Hget & Haddr & Hport & _).
  cbn [addresses port] in Haddr, Hport. subst addrs p.
  exists w'. split; [exact Hrun|exact Hget].
Defined.

(** C9. When the service does not resolve, [add_service] leaves every
    dictionary as it was: nothing is added, removed or changed. *)
Theorem add_service_unresolved (env : Env) (self : MyListener) (z : ref)
  (ty name : string) (w : World) :
  env_get_service_info env (w_lookups w) ty name = None ->
  exists w',
    add_service env self z ty name w = (Ret tt, w') /\
    w_dicts w' = w_dicts w /\
    dict_at w' (services self) = dict_at w (services self) /\
    same_but_store w w'.
Proof.
  intros Hinfo. rewrite add_service_run, Hinfo. eexists.
  split; [reflexivity|]. split; [reflexivity|]. split; [reflexivity|].
  repeat split.
Qed.

Lemma add_service_unresolved_witness :
  exists w',
    add_service home_network (mkListener 0%nat) 1%nat "_http._tcp.local."
      "ghost._http._tcp.local." initial_world = (Ret tt, w') /\
    w_dicts w' = w_dicts initial_world.
Proof.
  destruct (add_service_unresolved home_network (mkListener 0%nat) 1%nat
              "_http._tcp.local." "ghost._http._tcp.local." initial_world
              eq_refl) as (w' & Hrun & Hd & _).
  by exists w'.
Defined.

(** ** Further properties of the script *)



(** X2. When [inet_aton] rejects the address, [register_service] raises
    [OSError] out of the argument list of the [ServiceInfo] constructor:
    the Zeroconf instance is already created and stays open, no record is
    built and nothing is registered. *)
Theorem register_service_rejected_address (env : Env) (name ty : string)
  (port : Z) (ip_address : option string) (w : World) (ip : string) :
  address_used env ip_address w ip ->
  env_zeroconf env (registration_instance ip_address w) = Ret tt ->
  env_inet_aton env ip = None ->
  exists w',
    register_service env name ty port ip_address w =
      (Raise (Exception "OSError"
                "illegal IP address string passed to inet_aton"), w') /\
    registration_instance ip_address w ∈ w_open w' /\
    last (events_since w w') =
      Some (EvZeroconf (registration_instance ip_address w)) /\
    (forall info, EvServiceInfo info ∉ events_since w w') /\
    registrations (events_since w w') = [].
Proof.
  intros Hip Hz Ha.
  pose proof (register_service_outcome env name ty port ip_address w ip Hip)
    as H.
  cbv zeta in H. rewrite Hz, Ha in H.
  destruct H as (w' & Hrun & Hev & Hopen).
  exists w'. split; [exact Hrun|]. split; [exact Hopen|]. rewrite Hev.
  split; [by rewrite last_app|]. split.
  - intros info Hin. in_events Hin ip_address.
  - rewrite registrations_app. by destruct ip_address.
Qed.

(** A host name is not an address. *)
Lemma register_service_rejected_address_witness :
  exists w',
    register_service home_network "test-service" "_http._tcp.local." 8080
      (Some "localhost") initial_world =
      (Raise (Exception "OSError"
                "illegal IP address string passed to inet_aton"), w') /\
    0%nat ∈ w_open w'.
Proof.
  destruct (register_service_rejected_address home_network "test-service"
              "_http._tcp.local." 8080 (Some "localhost") initial_world
              "localhost" eq_refl eq_refl eq_refl)
    as (w' & Hrun & Hopen & _).
  exists w'. split; [exact Hrun|exact Hopen].
Defined.

(** X3. When the [ServiceInfo] constructor refuses its arguments, the
    exception leaves [register_service]: the constructor is called before
    the [try], so nothing is printed, nothing is registered and the
    Zeroconf instance created just before stays open. *)
Theorem register_service_constructor_refuses (env : Env) (name ty : string)
  (port : Z) (ip_address : option string) (w : World) (ip : string)
  (a : ipv4) (e : exn) :
  address_used env ip_address w ip ->
  env_zeroconf env (registration_instance ip_address w) = Ret tt ->
  env_inet_aton env ip = Some a ->
  env_service_info env
    (mkServiceInfo ty (name +:+ "." +:+ ty) [a] port []
       (env_hostname env +:+ ".local.")) = Raise e ->
  exists w',
    register_service env name ty port ip_address w = (Raise e, w') /\
    registration_instance ip_address w ∈ w_open w' /\
    (forall m, EvPrint m ∉ events_since w w') /\
    (forall z, EvClose z ∉ events_since w w') /\
    registrations (events_since w w') = [].
Proof.
  intros Hip Hz Ha Hi.
  pose proof (register_service_outcome env name ty port ip_address w ip Hip)
    as H.
  cbv zeta in H. rewrite Hz, Ha, Hi in H.
  destruct H as (w' & Hrun & Hev & Hopen).
  exists w'. split; [exact Hrun|]. split; [exact Hopen|]. rewrite Hev.
  split_and!.
  - intros m Hin. in_events Hin ip_address.
  - intros z Hin. in_events Hin ip_address.
  - rewrite registrations_app. by destruct ip_address.
Qed.

(** A service type the library does not accept. *)
Lemma register_service_constructor_refuses_witness :
  exists w',
    register_service checks_types "test-service" "bad" 8080
      (Some "192.168.1.10") initial_world =
      (Raise (Exception "BadTypeInNameException" "bad"), w') /\
    0%nat ∈ w_open w'.
Proof.
  destruct (register_service_constructor_refuses checks_types "test-service"
              "bad" 8080 (Some "192.168.1.10") initial_world "192.168.1.10"
              lan_address (Exception "BadTypeInNameException" "bad")
              eq_refl eq_refl eq_refl eq_refl)
    as (w' & Hrun & Hopen & _).
  exists w'. split; [exact Hrun|exact Hopen].
Defined.



(** X5. When no socket can be created, [test_mdns] ends with that
    exception at its first statement: nothing is printed and the world is
    as it was. *)
Theorem test_mdns_no_socket (env : Env) (w : World) (e : exn) :
  env_socket env = Raise e -> test_mdns env w = (Raise e, w).
Proof.
  intros Hs. pose proof (test_mdns_run env w) as H. by rewrite Hs in H.
Qed.

Lemma test_mdns_no_socket_witness :
  test_mdns no_sockets initial_world =
    (Raise (Exception "OSError" "Too many open files"), initial_world).
Proof. apply (test_mdns_no_socket no_sockets initial_world). reflexivity. Defined.



(** X7. [discover_services] registers nothing, whatever its outcome. *)
Theorem discover_services_registers_nothing (env : Env) (ty : string)
  (duration : Q) (w : World) :
  exists r w',
    discover_services env ty duration w = (r, w') /\
    registrations (events_since w w') = [].
Proof.
  destruct (discover_services_quiet env ty duration w)
    as (r & w' & t & Hrun & Ht & Hreg).
  exists r, w'. split; [exact Hrun|].
  by rewrite (events_since_app _ _ _ Ht).
Qed.

(** X8. An [add_service] whose lookup resolves changes one entry of one
    dictionary: the entries under other names, the other dictionaries,
    the open instances, the browsers and the trace are as before (the
    line that would print the discovery is commented out). *)
Theorem add_service_touches_one_entry (env : Env) (self : MyListener)
  (z : ref) (ty name : string) (w : World) (info : ServiceInfo) :
  env_get_service_info env (w_lookups w) ty name = Some info ->
  exists w',
    add_service env self z ty name w = (Ret tt, w') /\
    (forall k, k <> name ->
       PyDict.get k (dict_at w' (services self)) =
       PyDict.get k (dict_at w (services self))) /\
    (forall d, d <> services self -> dict_at w' d = dict_at w d) /\
    w_open w' = w_open w /\ w_browsers w' = w_browsers w /\
    events_since w w' = [].
Proof.
  intros Hinfo.
  destruct (add_service_resolved env self z ty name w info Hinfo)
    as (w' & Hrun & (Hn & Ho & Hb & Ht) & _ & Hd & Hother).
  exists w'. split; [exact Hrun|]. split_and!.
  - intros k Hk. rewrite Hd. by apply get_set_ne.
  - exact Hother.
  - exact Ho.
  - exact Hb.
  - apply events_since_app. by rewrite app_nil_r.
Qed.

Lemma add_service_touches_one_entry_witness :
  exists w',
    add_service home_network (mkListener 0%nat) 1%nat "_http._tcp.local."
      "printer._http._tcp.local." initial_world = (Ret tt, w') /\
    events_since initial_world w' = [].
Proof.
  destruct (add_service_touches_one_entry home_network (mkListener 0%nat)
              1%nat "_http._tcp.local." "printer._http._tcp.local."
              initial_world printer eq_refl)
    as (w' & Hrun & _ & _ & _ & _ & Hev).
  exists w'. split; [exact Hrun|exact Hev].
Defined.

(** X9. When [ServiceBrowser] refuses the service type, the exception
    leaves [discover_services] before anything is printed, and the
    Zeroconf instance created for the scan is left open: no [close] is
    reached. *)
Theorem discover_services_browser_refuses (env : Env) (ty : string)
  (duration : Q) (w : World) (e : exn) :
  env_zeroconf env (w_next w) = Ret tt ->
  env_browser env ty = Raise e ->
  exists w',
    discover_services env ty duration w = (Raise e, w') /\
    events_since w w' = [EvZeroconf (w_next w)] /\
    w_next w ∈ w_open w' /\
    w_browsers w' = w_browsers w.
Proof.
  intros Hz Hb. destruct w as [n ds o bs l t].
  cbn [w_next w_dicts w_open w_browsers w_lookups w_trace] in *.
  unfold discover_services. run_script. rewrite Hz. run_script.
  rewrite Hb. run_script.
  eexists. split; [reflexivity|].
  split; [by apply events_since_app|].
  cbn [w_open w_browsers]. split; [|reflexivity].
  apply elem_of_union_l. by apply elem_of_singleton.
Qed.

Lemma discover_services_browser_refuses_witness :
  exists w',
    discover_services checks_types "bad" 5 initial_world =
      (Raise (Exception "BadTypeInNameException" "bad"), w') /\
    0%nat ∈ w_open w'.
Proof.
  destruct (discover_services_browser_refuses checks_types "bad" 5
              initial_world (Exception "BadTypeInNameException" "bad")
              eq_refl eq_refl)
    as (w' & Hrun & _ & Hopen & _).
  exists w'. split; [exact Hrun|exact Hopen].
Defined.




